(** * Serving-container packaging: the Dockerfile and the deployment notebook

    The repository ships a Dockerfile that builds the serving image and a
    notebook that deploys models on it.  The Dockerfile is embedded as the
    list of its instructions, read by a small build interpreter that
    produces the image configuration (labels, environment, working
    directory, entrypoint) and the set of files copied into the image.  The
    notebook is embedded as the values its deployment cells construct. *)

From Stdlib Require Import Ascii String.
From stdpp Require Import gmap strings list fin_maps.

Open Scope string_scope.

(** ** The option monad used by the fallible build steps *)

Fixpoint foldM {A B : Type} (f : A -> B -> option A) (l : list B) (a : A) : option A :=
  match l with
  | [] => Some a
  | b :: l' => match f a b with
               | Some a' => foldM f l' a'
               | None => None
               end
  end.

(** ** Paths *)

Definition is_absolute (p : string) : bool :=
  match p with
  | String c _ => bool_decide (c = "/"%char)
  | EmptyString => false
  end.

Fixpoint ends_with_slash (p : string) : bool :=
  match p with
  | EmptyString => false
  | String c EmptyString => bool_decide (c = "/"%char)
  | String _ r => ends_with_slash r
  end.

(** A path given to WORKDIR, COPY or as a program argument is taken as it
    is when absolute, and relative to the working directory otherwise. *)
Definition resolve (wd p : string) : string :=
  if is_absolute p then p
  else if ends_with_slash wd then wd ++ p
  else wd ++ "/" ++ p.

Module Docker.

(** A value of an ENV instruction: literal text and [${NAME}] references. *)
Inductive word : Type :=
| Lit (s : string)
| Ref (x : string).

(** The instructions the Dockerfile uses.  ENTRYPOINT is the exec (JSON
    array) form. *)
Inductive instruction : Type :=
| FROM (image : string)
| LABEL (kvs : list (string * string))
| RUN (command : string)
| ENV (kvs : list (string * list word))
| WORKDIR (path : string)
| COPY (src dst : string)
| ENTRYPOINT (argv : list string).

(** The configuration an image carries, with the field names of the image
    manifest. *)
Record Config : Type := mkConfig {
  Labels : gmap string string;
  Env : gmap string string;
  WorkingDir : string;
  Entrypoint : list string;
  Cmd : list string
}.

Record Image : Type := mkImage {
  config : Config;
  files : gset string
}.

Definition expand_word (env : gmap string string) (w : word) : string :=
  match w with
  | Lit s => s
  | Ref x => default "" (env !! x)
  end.

(** Every reference of one ENV instruction reads the environment as it was
    before the instruction. *)
Definition expand (env : gmap string string) (ws : list word) : string :=
  String.concat "" (map (expand_word env) ws).

Definition set_all (kvs : list (string * string)) (m : gmap string string)
  : gmap string string :=
  fold_left (fun acc kv => <[kv.1 := kv.2]> acc) kvs m.

(** The instructions that only change the configuration.  An ENTRYPOINT
    drops the command inherited from the base image. *)
Definition configure (c : Config) (i : instruction) : Config :=
  match i with
  | LABEL kvs =>
      mkConfig (set_all kvs (Labels c)) (Env c) (WorkingDir c) (Entrypoint c) (Cmd c)
  | ENV kvs =>
      mkConfig (Labels c)
               (set_all (map (fun kv => (kv.1, expand (Env c) kv.2)) kvs) (Env c))
               (WorkingDir c) (Entrypoint c) (Cmd c)
  | WORKDIR p =>
      mkConfig (Labels c) (Env c) (resolve (WorkingDir c) p) (Entrypoint c) (Cmd c)
  | ENTRYPOINT argv =>
      mkConfig (Labels c) (Env c) (WorkingDir c) argv []
  | FROM _ | RUN _ | COPY _ _ => c
  end.

Section Build.

(** What the build depends on besides the Dockerfile: the registry the base
    image is pulled from, the effect of a shell command on the files of the
    image it runs in (a command may fail), and the files of the build
    context. *)
Variable pull : string -> option Image.
Variable sh : string -> Image -> option (gset string).
Variable context : gset string.

Definition exec (img : Image) (i : instruction) : option Image :=
  match i with
  | FROM base => pull base
  | RUN command =>
      match sh command img with
      | Some fs => Some (mkImage (config img) fs)
      | None => None
      end
  | COPY src dst =>
      if bool_decide (src ∈ context)
      then Some (mkImage (config img)
                         ({[ resolve (WorkingDir (config img)) dst ]} ∪ files img))
      else None
  | LABEL _ | ENV _ | WORKDIR _ | ENTRYPOINT _ =>
      Some (mkImage (configure (config img) i) (files img))
  end.

(** A Dockerfile starts with FROM. *)
Definition build (df : list instruction) : option Image :=
  match df with
  | FROM base :: rest =>
      match pull base with
      | Some img => foldM exec rest img
      | None => None
      end
  | _ => None
  end.

End Build.

(** A container started from an image: the labels are the image's, the
    variables given at start override the image's, and the arguments given
    at start (the image's command when there are none) follow the
    entrypoint. *)
Record Container : Type := mkContainer {
  c_labels : gmap string string;
  c_env : gmap string string;
  c_cwd : string;
  c_argv : list string;
  c_files : gset string
}.

Definition run (img : Image) (args : list string) (env : gmap string string)
  : Container :=
  mkContainer (Labels (config img))
              (env ∪ Env (config img))
              (WorkingDir (config img))
              (Entrypoint (config img) ++
                 match args with [] => Cmd (config img) | _ => args end)
              (files img).

End Docker.

Import Docker.

(** ** docker/Dockerfile

    The instructions in the order of the file; a command that the file
    continues over several lines is one string. *)

Definition multi_models : string := "com.amazonaws.sagemaker.capabilities.multi-models".
Definition accept_bind_to_port : string :=
  "com.amazonaws.sagemaker.capabilities.accept-bind-to-port".

Definition Dockerfile : list instruction :=
  [ FROM "ubuntu:16.04";
    LABEL [("maintainer", "Giuseppe A. Porcelli")];
    LABEL [(multi_models, "true")];
    LABEL [(accept_bind_to_port, "true")];
    RUN "apt-get update && apt-get -y install build-essential libatlas-dev git wget curl openjdk-8-jdk-headless";
    RUN "echo 'installing miniconda' && curl -LO http://repo.continuum.io/miniconda/Miniconda3-latest-Linux-x86_64.sh && bash Miniconda3-latest-Linux-x86_64.sh -bfp /miniconda3 && rm Miniconda3-latest-Linux-x86_64.sh";
    ENV [("PATH", [Lit "/miniconda3/bin:"; Ref "PATH"])];
    RUN "conda install python=3.6 && conda update -y conda && conda install -c conda-forge pyarrow=0.14.1 && conda install -c mlio -c conda-forge mlio-py=0.1";
    ENV [("PYTHONDONTWRITEBYTECODE", [Lit "1"]);
         ("PYTHONUNBUFFERED", [Lit "1"]);
         ("PYTHONIOENCODING", [Lit "UTF-8"]);
         ("LANG", [Lit "C.UTF-8"]);
         ("LC_ALL", [Lit "C.UTF-8"])];
    RUN "pip install --no-cache -I xgboost==0.90";
    RUN "pip --no-cache-dir install multi-model-server sagemaker-inference retrying";
    WORKDIR "/";
    COPY "code/multi_model_serving-1.0.0.tar.gz" "/multi_model_serving-1.0.0.tar.gz";
    RUN "pip install /multi_model_serving-1.0.0.tar.gz && rm /multi_model_serving-1.0.0.tar.gz";
    COPY "code/serve.py" "/serve.py";
    ENTRYPOINT ["python"; "serve.py"] ].

(** The base images a Dockerfile pulls, the commands it runs and the files
    it copies from the build context. *)
Definition base_images (df : list instruction) : list string :=
  flat_map (fun i => match i with FROM b => [b] | _ => [] end) df.

Definition commands (df : list instruction) : list string :=
  flat_map (fun i => match i with RUN c => [c] | _ => [] end) df.

Definition copy_sources (df : list instruction) : list string :=
  flat_map (fun i => match i with COPY s _ => [s] | _ => [] end) df.

(** The labels and the variables a Dockerfile sets. *)
Definition label_keys (df : list instruction) : list string :=
  flat_map (fun i => match i with LABEL kvs => kvs.*1 | _ => [] end) df.

Definition env_keys (df : list instruction) : list string :=
  flat_map (fun i => match i with ENV kvs => kvs.*1 | _ => [] end) df.

(** The variables of the Dockerfile's second ENV instruction. *)
Definition python_environment : list (string * string) :=
  [ ("PYTHONDONTWRITEBYTECODE", "1");
    ("PYTHONUNBUFFERED", "1");
    ("PYTHONIOENCODING", "UTF-8");
    ("LANG", "C.UTF-8");
    ("LC_ALL", "C.UTF-8") ].

(** ** notebook/multi-model-server-container.ipynb *)

Module Notebook.

(** [str.split(sep)] for a one-character separator. *)
Fixpoint split (sep : ascii) (s : string) : list string :=
  match s with
  | EmptyString => [EmptyString]
  | String c r =>
      if bool_decide (c = sep) then EmptyString :: split sep r
      else match split sep r with
           | h :: t => String c h :: t
           | [] => [String c EmptyString]
           end
  end.

(** The arguments the notebook gives to [sagemaker.model.Model] that reach
    the hosted container (the predictor class and the session stay on the
    client). *)
Record Model : Type := mkModel {
  name : string;
  model_data : string;
  image_uri : string;
  role : string;
  env : gmap string string
}.

Record MultiDataModel : Type := mkMultiDataModel {
  mdm_name : string;
  model_data_prefix : string;
  model : Model
}.

Definition ecr_namespace : string := "sagemaker-serving-containers/".
Definition prefix : string := "multi-model-server-container".
Definition ecr_repository_name : string := ecr_namespace ++ prefix.

(** [role.split(':')[4]]; the index is out of range for a role with fewer
    than five fields. *)
Definition account_id (execution_role : string) : option string :=
  split ":" execution_role !! 4%nat.

(** The model directories archived by [tar -C ./model_and_code_N/ ...] and
    the inference script the notebook shows in each. *)
Definition model_and_code_1 : string := "model_and_code_1".
Definition model_and_code_2 : string := "model_and_code_2".
Definition inference_scripts : list string :=
  [ model_and_code_1 ++ "/code/predictor.py";
    model_and_code_2 ++ "/code/predictor.py" ].

Section Session.

(** The values the notebook reads from its session: the execution role, its
    account, the region, the default bucket, and the time stamps
    [strftime] returns when the two models are named. *)
Variables (execution_role account region bucket stamp : string).

Definition container_image_uri : string :=
  account ++ ".dkr.ecr." ++ region ++ ".amazonaws.com/" ++ ecr_repository_name
          ++ ":latest".

Definition s3_model_path : string :=
  "s3://" ++ bucket ++ "/" ++ prefix ++ "/model/model1.tar.gz".

(** "Deploy a single model". *)
Definition single_model : Model :=
  mkModel ("multi-model-server-model-" ++ stamp)
          s3_model_path
          container_image_uri
          execution_role
          {[ "SAGEMAKER_PROGRAM" := "predictor" ]}.

Definition s3_model_data_prefix : string :=
  "s3://" ++ bucket ++ "/" ++ prefix ++ "/modeldata".
Definition s3_model_1_path : string := s3_model_data_prefix ++ "/model1.tar.gz".
Definition s3_model_2_path : string := s3_model_data_prefix ++ "/model2.tar.gz".

(** "Deploy multiple models". *)
Definition multi_model : MultiDataModel :=
  let model_name := "multi-model-server-multidatamodel-" ++ stamp in
  mkMultiDataModel model_name
                   s3_model_data_prefix
                   (mkModel model_name "" container_image_uri execution_role
                            {[ "SAGEMAKER_PROGRAM" := "predictor" ]}).

(** The environment each deployment hands to its containers. *)
Definition deployed_environments : list (gmap string string) :=
  [ env single_model; env (model multi_model) ].

End Session.

Section Endpoints.

(** The time stamp [strftime] returns when an endpoint is named. *)
Variable stamp : string.

Definition endpoint_name : string := "multi-model-server-single-ep-" ++ stamp.
Definition multi_endpoint_name : string := "multi-model-server-ep-" ++ stamp.

End Endpoints.

(** The archives the notebook copies under the model data prefix, and the
    [target_model] of each of its two invocations of the multi-model
    endpoint. *)
Definition uploaded_archives (bucket : string) : list string :=
  [ s3_model_1_path bucket; s3_model_2_path bucket ].

Definition invoked_targets : list string := [ "/model1.tar.gz"; "/model2.tar.gz" ].

(** How often a character occurs in a string. *)
Fixpoint count_char (c : ascii) (s : string) : nat :=
  match s with
  | EmptyString => 0
  | String a r => (if bool_decide (a = c) then 1 else 0) + count_char c r
  end.

End Notebook.

(** ** Python module names *)

(** The part of a path after its last [/]. *)
Definition basename (p : string) : string :=
  default EmptyString (last (Notebook.split "/" p)).

(** The module a [.py] file defines: its name without the extension. *)
Fixpoint module_of_file (f : string) : option string :=
  match f with
  | EmptyString => None
  | String c r =>
      if bool_decide (f = ".py") then Some EmptyString
      else String c <$> module_of_file r
  end.

Definition module_name (path : string) : option string :=
  module_of_file (basename path).

(** ** The container's reading of its environment *)

(** The variable the notebook sets for its deployments, and the variable
    the Dockerfile's second capability label is about. *)
Definition SAGEMAKER_PROGRAM : string := "SAGEMAKER_PROGRAM".
Definition SAGEMAKER_BIND_TO_PORT : string := "SAGEMAKER_BIND_TO_PORT".

(** Modelled from the spec: the started server's choice of the inference
    script.  The entrypoint script code/serve.py and the handler package it
    starts are missing; the spec says "Configuration via environment: a
    variable selecting the entry-point script name". *)
Definition entry_point_script (c : Container) : option string :=
  c_env c !! SAGEMAKER_PROGRAM.

(** Modelled from the spec: the started server's choice of the port it
    binds.  The entrypoint script code/serve.py and the handler package it
    starts are missing; the spec says "Configuration via environment: [...]
    a variable selecting the bind port". *)
Definition bind_port (c : Container) : option string :=
  c_env c !! SAGEMAKER_BIND_TO_PORT.

(** ** A concrete build, used to run the definitions *)

Definition ubuntu : Image :=
  mkImage (mkConfig ∅
                    {[ "PATH" := "/usr/local/sbin:/usr/local/bin:/usr/sbin:/usr/bin:/sbin:/bin" ]}
                    "" [] ["/bin/bash"])
          ∅.

Definition registry (image : string) : option Image :=
  if bool_decide (image = "ubuntu:16.04") then Some ubuntu else None.

(** A shell whose commands all succeed and leave the files as they are. *)
Definition quiet_shell (command : string) (img : Image) : option (gset string) :=
  Some (files img).

Definition docker_context : gset string :=
  {[ "code/multi_model_serving-1.0.0.tar.gz"; "code/serve.py" ]}.

(** The image this build gives. *)
Definition built_image : Image :=
  mkImage
    (mkConfig
       {[ "maintainer" := "Giuseppe A. Porcelli";
          multi_models := "true";
          accept_bind_to_port := "true" ]}
       {[ "PATH" := "/miniconda3/bin:/usr/local/sbin:/usr/local/bin:/usr/sbin:/usr/bin:/sbin:/bin";
          "PYTHONDONTWRITEBYTECODE" := "1";
          "PYTHONUNBUFFERED" := "1";
          "PYTHONIOENCODING" := "UTF-8";
          "LANG" := "C.UTF-8";
          "LC_ALL" := "C.UTF-8" ]}
       "/" ["python"; "serve.py"] [])
    {[ "/multi_model_serving-1.0.0.tar.gz"; "/serve.py" ]}.

(** The container the platform starts for the single-model deployment,
    told to serve on port 8081. *)
Definition hosted_environment : gmap string string :=
  {[ "SAGEMAKER_PROGRAM" := "predictor"; "SAGEMAKER_BIND_TO_PORT" := "8081" ]}.


(** * Properties *)

(** ** The build interpreter *)

Lemma foldM_app {A B : Type} (f : A -> B -> option A) (l1 l2 : list B) (a : A) :
  foldM f (l1 ++ l2) a =
  match foldM f l1 a with Some a' => foldM f l2 a' | None => None end.
Proof.
  revert a. induction l1 as [|b l1 IH]; intros a; simpl; [done|].
  destruct (f a b); [apply IH | done].
Qed.

Lemma base_images_cons (i : instruction) (df : list instruction) :
  base_images (i :: df) = [] ->
  (forall b, i <> FROM b) /\ base_images df = [].
Proof.
  unfold base_images; simpl. destruct i; simpl; intros H; try done.
Qed.

Section BuildFacts.

Variable pull : string -> option Image.
Variable sh : string -> Image -> option (gset string).
Variable context : gset string.

(** Every instruction but FROM changes the configuration as [configure]
    says, whatever the shell and the build context are. *)
Lemma exec_config (img img' : Image) (i : instruction) :
  (forall b, i <> FROM b) ->
  exec pull sh context img i = Some img' ->
  config img' = configure (config img) i.
Proof.
  intros Hfrom Hexec. destruct i; simpl in Hexec.
  - by destruct (Hfrom image).
  - by inversion Hexec.
  - destruct (sh command img); by inversion Hexec.
  - by inversion Hexec.
  - by inversion Hexec.
  - case_bool_decide; by inversion Hexec.
  - by inversion Hexec.
Qed.

Lemma stage_config (rest : list instruction) (img img' : Image) :
  base_images rest = [] ->
  foldM (exec pull sh context) rest img = Some img' ->
  config img' = fold_left configure rest (config img).
Proof.
  revert img. induction rest as [|i rest IH]; intros img Hbases Hrun; simpl in *.
  - by inversion Hrun.
  - apply base_images_cons in Hbases as [Hi Hrest].
    destruct (exec pull sh context img i) as [img1|] eqn:Hexec; [|done].
    rewrite (IH img1 Hrest Hrun). by rewrite (exec_config img img1 i Hi Hexec).
Qed.

(** The configuration of a single-stage image is the fold of [configure]
    over the instructions after FROM, from the base image's. *)
Lemma build_config (base : string) (rest : list instruction) (img : Image) :
  base_images rest = [] ->
  build pull sh context (FROM base :: rest) = Some img ->
  exists b, pull base = Some b /\
            config img = fold_left configure rest (config b).
Proof.
  intros Hbases Hbuild. simpl in Hbuild.
  destruct (pull base) as [b|]; [|done].
  exists b. split; [done|]. by apply stage_config.
Qed.

(** Without FROM and RUN, a stage only adds files. *)
Lemma exec_files_grow (img img' : Image) (i : instruction) :
  (forall b, i <> FROM b) ->
  (forall c, i <> RUN c) ->
  exec pull sh context img i = Some img' ->
  files img ⊆ files img'.
Proof.
  intros Hfrom Hrun Hexec. destruct i; simpl in Hexec.
  - by destruct (Hfrom image).
  - by inversion Hexec.
  - by destruct (Hrun command).
  - by inversion Hexec.
  - by inversion Hexec.
  - case_bool_decide; [|done]. inversion Hexec; subst; simpl. set_solver.
  - by inversion Hexec.
Qed.

Lemma commands_cons (i : instruction) (df : list instruction) :
  commands (i :: df) = [] ->
  (forall c, i <> RUN c) /\ commands df = [].
Proof.
  unfold commands; simpl. destruct i; simpl; intros H; try done.
Qed.

Lemma stage_files_grow (rest : list instruction) (img img' : Image) :
  base_images rest = [] ->
  commands rest = [] ->
  foldM (exec pull sh context) rest img = Some img' ->
  files img ⊆ files img'.
Proof.
  revert img. induction rest as [|i rest IH]; intros img Hb Hc Hrun; simpl in Hrun.
  - by inversion Hrun.
  - apply base_images_cons in Hb as [Hi Hb].
    apply commands_cons in Hc as [Hi' Hc].
    destruct (exec pull sh context img i) as [img1|] eqn:Hexec; [|done].
    transitivity (files img1).
    + by apply (exec_files_grow img img1 i).
    + by apply IH.
Qed.

(** A file copied by a COPY that no RUN follows is in the image, at its
    destination resolved against the working directory of that moment. *)
Lemma copied_file_stays (l1 l2 : list instruction) (src dst : string)
      (img img' : Image) :
  base_images (l1 ++ COPY src dst :: l2) = [] ->
  commands l2 = [] ->
  foldM (exec pull sh context) (l1 ++ COPY src dst :: l2) img = Some img' ->
  resolve (WorkingDir (fold_left configure l1 (config img))) dst ∈ files img'.
Proof.
  intros Hbases Hcmds Hrun. rewrite foldM_app in Hrun.
  destruct (foldM (exec pull sh context) l1 img) as [img1|] eqn:H1; [|done].
  assert (base_images l1 = [] /\ base_images l2 = []) as [Hb1 Hb2].
  { unfold base_images in *. rewrite flat_map_app in Hbases. simpl in Hbases.
    by apply app_eq_nil in Hbases. }
  rewrite <- (stage_config l1 img img1 Hb1 H1).
  simpl in Hrun. case_bool_decide; [|done].
  apply (stage_files_grow l2 _ img' Hb2 Hcmds) in Hrun.
  simpl in Hrun. set_solver.
Qed.



End BuildFacts.

(** ** The image built from the Dockerfile *)

Lemma Dockerfile_single_stage : base_images (tail Dockerfile) = [].
Proof. reflexivity. Qed.

Section ImageFacts.

Variable pull : string -> option Image.
Variable sh : string -> Image -> option (gset string).
Variable context : gset string.
Variable img : Image.
Hypothesis Hbuild : build pull sh context Dockerfile = Some img.

Lemma image_config :
  exists b, pull "ubuntu:16.04" = Some b /\
            config img = fold_left configure (tail Dockerfile) (config b).
Proof. apply (build_config pull sh context); [reflexivity | exact Hbuild]. Qed.

Lemma image_labels :
  exists b, pull "ubuntu:16.04" = Some b /\
    Labels (config img) =
    <[accept_bind_to_port := "true"]>
      (<[multi_models := "true"]>
         (<["maintainer" := "Giuseppe A. Porcelli"]> (Labels (config b)))).
Proof.
  destruct image_config as (b & Hb & ->). exists b. split; [done|]. reflexivity.
Qed.

Lemma image_multi_models : Labels (config img) !! multi_models = Some "true".
Proof.
  destruct image_labels as (b & _ & ->).
  rewrite lookup_insert_ne; [|done]. apply lookup_insert_eq.
Qed.

Lemma image_accept_bind_to_port :
  Labels (config img) !! accept_bind_to_port = Some "true".
Proof. destruct image_labels as (b & _ & ->). apply lookup_insert_eq. Qed.

Lemma image_entrypoint : Entrypoint (config img) = ["python"; "serve.py"].
Proof. destruct image_config as (b & _ & ->). reflexivity. Qed.

Lemma image_cmd : Cmd (config img) = [].
Proof. destruct image_config as (b & _ & ->). reflexivity. Qed.

Lemma image_workdir : WorkingDir (config img) = "/".
Proof. destruct image_config as (b & _ & ->). reflexivity. Qed.


End ImageFacts.

Section ContainerFacts.

Variable pull : string -> option Image.
Variable sh : string -> Image -> option (gset string).
Variable context : gset string.
Variable img : Image.
Hypothesis Hbuild : build pull sh context Dockerfile = Some img.

(** serve.py is copied after the last RUN, so no command can remove it. *)
Lemma image_serve_py : "/serve.py" ∈ files img.
Proof.
  pose proof Hbuild as Hrun. unfold build, Dockerfile in Hrun.
  destruct (pull "ubuntu:16.04") as [b|]; [|done].
  apply (copied_file_stays pull sh context
           (firstn 13 (tail Dockerfile)) [ENTRYPOINT ["python"; "serve.py"]]
           "code/serve.py" "/serve.py" b img); [reflexivity | reflexivity |].
  exact Hrun.
Qed.

(** The process of a container: the entrypoint followed by the arguments
    given at start. *)
Lemma container_argv (args : list string) (e : gmap string string) :
  c_argv (run img args e) = "python" :: "serve.py" :: args.
Proof.
  unfold run; simpl.
  rewrite (image_entrypoint pull sh context img Hbuild).
  rewrite (image_cmd pull sh context img Hbuild).
  by destruct args.
Qed.

Lemma container_script_file (args : list string) (e : gmap string string) :
  resolve (c_cwd (run img args e)) "serve.py" ∈ c_files (run img args e).
Proof.
  unfold run; simpl.
  rewrite (image_workdir pull sh context img Hbuild).
  exact image_serve_py.
Qed.

(** A variable given at start is what the container sees. *)
Lemma container_env_given (args : list string) (e : gmap string string)
      (k v : string) :
  e !! k = Some v -> c_env (run img args e) !! k = Some v.
Proof. intros Hk. unfold run; simpl. by apply lookup_union_Some_l. Qed.

End ContainerFacts.

(** ** The notebook's deployments *)

Lemma deployments_name_predictor
      (execution_role account region bucket stamp : string)
      (d : gmap string string) :
  d ∈ Notebook.deployed_environments execution_role account region bucket stamp ->
  d !! SAGEMAKER_PROGRAM = Some "predictor".
Proof.
  unfold Notebook.deployed_environments; simpl. intros Hd.
  apply elem_of_cons in Hd as [-> | Hd]; [by apply lookup_singleton_eq|].
  apply elem_of_cons in Hd as [-> | Hd]; [by apply lookup_singleton_eq|].
  by apply elem_of_nil in Hd.
Qed.

Lemma inference_scripts_module (f : string) :
  f ∈ Notebook.inference_scripts -> module_name f = Some "predictor".
Proof.
  unfold Notebook.inference_scripts. intros Hf.
  apply elem_of_cons in Hf as [-> | Hf]; [reflexivity|].
  apply elem_of_cons in Hf as [-> | Hf]; [reflexivity|].
  by apply elem_of_nil in Hf.
Qed.

(** The notes under the two deployment cells call the variable
    SAGEMAKER_PREDICTOR; the cells themselves set SAGEMAKER_PROGRAM only. *)
Lemma deployments_do_not_set_SAGEMAKER_PREDICTOR
      (execution_role account region bucket stamp : string)
      (d : gmap string string) :
  d ∈ Notebook.deployed_environments execution_role account region bucket stamp ->
  d !! "SAGEMAKER_PREDICTOR" = None.
Proof.
  unfold Notebook.deployed_environments; simpl. intros Hd.
  apply elem_of_cons in Hd as [-> | Hd]; [by apply lookup_singleton_ne|].
  apply elem_of_cons in Hd as [-> | Hd]; [by apply lookup_singleton_ne|].
  by apply elem_of_nil in Hd.
Qed.

(** ** Claims *)

(** C9.  The serving container is configured through its environment: the
    variable SAGEMAKER_PROGRAM selects the entry-point script and the
    variable SAGEMAKER_BIND_TO_PORT selects the bind port.  For every image
    built from the Dockerfile and every container started from it, with any
    arguments and any start environment [e]: a value given for
    SAGEMAKER_PROGRAM is the script the container reads, a value given for
    SAGEMAKER_BIND_TO_PORT is the port it reads, and the container carries
    the accept-bind-to-port label.  Both deployments of the notebook set
    SAGEMAKER_PROGRAM to predictor, so a container whose start environment
    includes a deployment's variables reads the script name predictor, which
    is the module of the inference script shipped in each model archive. *)
Theorem environment_selects_script_and_port
        (pull : string -> option Image)
        (sh : string -> Image -> option (gset string))
        (context : gset string) (img : Image)
        (execution_role account region bucket stamp : string) :
  build pull sh context Dockerfile = Some img ->
  forall (args : list string) (e : gmap string string),
    let c := run img args e in
    (forall s, e !! SAGEMAKER_PROGRAM = Some s -> entry_point_script c = Some s) /\
    (forall p, e !! SAGEMAKER_BIND_TO_PORT = Some p -> bind_port c = Some p) /\
    c_labels c !! accept_bind_to_port = Some "true" /\
    (forall d,
        d ∈ Notebook.deployed_environments execution_role account region bucket stamp ->
        d ⊆ e -> entry_point_script c = Some "predictor") /\
    (forall f, f ∈ Notebook.inference_scripts -> module_name f = Some "predictor").
Proof.
  intros Hbuild args e c. subst c. repeat split.
  - intros s Hs. by apply container_env_given.
  - intros p Hp. by apply container_env_given.
  - exact (image_accept_bind_to_port pull sh context img Hbuild).
  - intros d Hd Hsub. apply container_env_given.
    apply (lookup_weaken d e); [|done].
    by apply (deployments_name_predictor execution_role account region bucket stamp).
  - apply inference_scripts_module.
Qed.

(** C10.  Every image built from the Dockerfile, whatever the base image,
    the effects of the RUN commands and the build context, carries the
    labels com.amazonaws.sagemaker.capabilities.multi-models=true and
    com.amazonaws.sagemaker.capabilities.accept-bind-to-port=true and has
    the entrypoint python serve.py; every container started from the image,
    with any arguments and environment, carries both labels and runs
    python serve.py followed by its arguments, and serve.py, resolved
    against the container's working directory, is a file of the image. *)
Theorem image_declares_capabilities_and_entrypoint
        (pull : string -> option Image)
        (sh : string -> Image -> option (gset string))
        (context : gset string) (img : Image) :
  build pull sh context Dockerfile = Some img ->
  Labels (config img) !! multi_models = Some "true" /\
  Labels (config img) !! accept_bind_to_port = Some "true" /\
  Entrypoint (config img) = ["python"; "serve.py"] /\
  forall (args : list string) (e : gmap string string),
    let c := run img args e in
    c_labels c !! multi_models = Some "true" /\
    c_labels c !! accept_bind_to_port = Some "true" /\
    c_argv c = "python" :: "serve.py" :: args /\
    resolve (c_cwd c) "serve.py" ∈ c_files c.
Proof.
  intros Hbuild.
  pose proof (image_multi_models pull sh context img Hbuild) as Hmm.
  pose proof (image_accept_bind_to_port pull sh context img Hbuild) as Habp.
  split; [done|]. split; [done|].
  split; [exact (image_entrypoint pull sh context img Hbuild)|].
  intros args e c. subst c. split; [done|]. split; [done|]. split.
  - exact (container_argv pull sh context img Hbuild args e).
  - exact (container_script_file pull sh context img Hbuild args e).
Qed.

(** ** The claims at a concrete build *)

Lemma concrete_build :
  build registry quiet_shell docker_context Dockerfile = Some built_image.
Proof. vm_compute. reflexivity. Qed.

Lemma environment_selects_script_and_port_witness :
  build registry quiet_shell docker_context Dockerfile = Some built_image /\
  let c := run built_image ["serve"] hosted_environment in
  entry_point_script c = Some "predictor" /\
  bind_port c = Some "8081" /\
  c_labels c !! accept_bind_to_port = Some "true".
Proof.
  split; [vm_compute; reflexivity|].
  destruct (environment_selects_script_and_port
              registry quiet_shell docker_context built_image
              "arn:aws:iam::123456789012:role/service-role/notebook"
              "123456789012" "eu-west-1" "sagemaker-eu-west-1-123456789012"
              "2020-01-01-00-00-00"
              ltac:(vm_compute; reflexivity)
              ["serve"] hosted_environment) as (Hs & Hp & Hl & _ & _).
  split; [apply Hs; vm_compute; reflexivity|].
  split; [apply Hp; vm_compute; reflexivity|].
  exact Hl.
Defined.

Lemma image_declares_capabilities_and_entrypoint_witness :
  build registry quiet_shell docker_context Dockerfile = Some built_image /\
  Labels (config built_image) !! multi_models = Some "true" /\
  Labels (config built_image) !! accept_bind_to_port = Some "true" /\
  Entrypoint (config built_image) = ["python"; "serve.py"] /\
  c_argv (run built_image ["serve"] hosted_environment) = ["python"; "serve.py"; "serve"].
Proof.
  split; [vm_compute; reflexivity|].
  destruct (image_declares_capabilities_and_entrypoint
              registry quiet_shell docker_context built_image
              ltac:(vm_compute; reflexivity)) as (Hmm & Habp & Hep & Hrun).
  split; [exact Hmm|]. split; [exact Habp|]. split; [exact Hep|].
  exact (proj1 (proj2 (proj2 (Hrun ["serve"] hosted_environment)))).
Defined.

(** * Further properties of the Dockerfile *)

Section BuildErrors.

Variable pull : string -> option Image.
Variable sh : string -> Image -> option (gset string).

Lemma stage_fails_without_source (context : gset string)
      (rest : list instruction) (img : Image) (s : string) :
  s ∈ copy_sources rest -> s ∉ context ->
  foldM (exec pull sh context) rest img = None.
Proof.
  revert img. induction rest as [|i rest IH]; intros img Hs Hctx.
  - by apply elem_of_nil in Hs.
  - simpl. destruct (exec pull sh context img i) as [img1|] eqn:Hexec; [|done].
    apply IH; [|done]. destruct i; try exact Hs.
    simpl in Hexec. case_bool_decide as Hin; [|done].
    unfold copy_sources in Hs. simpl in Hs.
    apply elem_of_cons in Hs as [-> | Hs]; [done | exact Hs].
Qed.


End BuildErrors.

Lemma set_all_other (kvs : list (string * string)) (m : gmap string string)
      (k : string) :
  k ∉ kvs.*1 -> set_all kvs m !! k = m !! k.
Proof.
  unfold set_all. revert m. induction kvs as [|[k' v'] kvs IH]; intros m Hk; [done|].
  simpl in *. apply not_elem_of_cons in Hk as [Hne Hk].
  rewrite IH; [|done]. by apply lookup_insert_ne.
Qed.

(** A stage leaves alone every label and every variable it does not set. *)
Lemma configure_labels_other (rest : list instruction) (c : Config) (k : string) :
  k ∉ label_keys rest ->
  Labels (fold_left configure rest c) !! k = Labels c !! k.
Proof.
  revert c. induction rest as [|i rest IH]; intros c Hk; [done|].
  unfold label_keys in Hk. simpl in Hk. apply not_elem_of_app in Hk as [Hi Hk].
  simpl. rewrite IH; [|exact Hk].
  destruct i; try done. simpl. by apply set_all_other.
Qed.

Lemma configure_env_other (rest : list instruction) (c : Config) (k : string) :
  k ∉ env_keys rest ->
  Env (fold_left configure rest c) !! k = Env c !! k.
Proof.
  revert c. induction rest as [|i rest IH]; intros c Hk; [done|].
  unfold env_keys in Hk. simpl in Hk. apply not_elem_of_app in Hk as [Hi Hk].
  simpl. rewrite IH; [|exact Hk].
  destruct i; try done. simpl. apply set_all_other.
  by rewrite <- list_fmap_compose.
Qed.

Lemma image_python_env
      (pull : string -> option Image)
      (sh : string -> Image -> option (gset string))
      (context : gset string) (img : Image) (k v : string) :
  build pull sh context Dockerfile = Some img ->
  (k, v) ∈ python_environment ->
  Env (config img) !! k = Some v.
Proof.
  intros Hbuild Hkv.
  destruct (image_config pull sh context img Hbuild) as (b & _ & ->).
  cbn [tail Dockerfile fold_left configure Env set_all map fst snd expand
       expand_word String.concat].
  unfold python_environment in Hkv.
  repeat (apply elem_of_cons in Hkv as [[= -> ->] | Hkv];
          [ repeat (rewrite lookup_insert_ne; [|done]); by rewrite lookup_insert_eq |]).
  by apply elem_of_nil in Hkv.
Qed.

(** X1.  The build gives no image when the base image ubuntu:16.04 cannot
    be pulled, or when the build context lacks the handler package
    code/multi_model_serving-1.0.0.tar.gz or the script code/serve.py,
    whatever the RUN commands do. *)
Theorem build_fails_without_its_inputs
        (pull : string -> option Image)
        (sh : string -> Image -> option (gset string))
        (context : gset string) :
  pull "ubuntu:16.04" = None \/
  ("code/multi_model_serving-1.0.0.tar.gz" ∉ context) \/
  ("code/serve.py" ∉ context) ->
  build pull sh context Dockerfile = None.
Proof.
  intros Hmissing. unfold build, Dockerfile.
  destruct (pull "ubuntu:16.04") as [b|] eqn:Hb; [|done].
  destruct Hmissing as [Hpull | [Hpkg | Hserve]]; [done | |].
  - apply (stage_fails_without_source pull sh context _ b
             "code/multi_model_serving-1.0.0.tar.gz"); [|done].
    unfold copy_sources; simpl. set_solver.
  - apply (stage_fails_without_source pull sh context _ b "code/serve.py"); [|done].
    unfold copy_sources; simpl. set_solver.
Qed.


(** X3.  Every image built from the Dockerfile sets
    PYTHONDONTWRITEBYTECODE=1, PYTHONUNBUFFERED=1, PYTHONIOENCODING=UTF-8,
    LANG=C.UTF-8 and LC_ALL=C.UTF-8, whatever the base image set; a
    container sees each of them unless its start environment sets that
    variable, and the containers of both notebook deployments see all of
    them. *)
Theorem python_environment_reaches_containers
        (pull : string -> option Image)
        (sh : string -> Image -> option (gset string))
        (context : gset string) (img : Image)
        (execution_role account region bucket stamp : string) :
  build pull sh context Dockerfile = Some img ->
  forall k v, (k, v) ∈ python_environment ->
    Env (config img) !! k = Some v /\
    (forall args (e : gmap string string),
        e !! k = None -> c_env (run img args e) !! k = Some v) /\
    (forall args d,
        d ∈ Notebook.deployed_environments execution_role account region bucket stamp ->
        c_env (run img args d) !! k = Some v).
Proof.
  intros Hbuild k v Hkv.
  pose proof (image_python_env pull sh context img k v Hbuild Hkv) as Himg.
  assert (forall args (e : gmap string string),
             e !! k = None -> c_env (run img args e) !! k = Some v) as Hrun.
  { intros args e He. unfold run; simpl. by rewrite lookup_union_r. }
  split; [done|]. split; [done|].
  intros args d Hd. apply Hrun.
  assert (k <> "SAGEMAKER_PROGRAM") as Hne.
  { unfold python_environment in Hkv.
    repeat (apply elem_of_cons in Hkv as [[= -> ->] | Hkv]; [done|]).
    by apply elem_of_nil in Hkv. }
  unfold Notebook.deployed_environments in Hd; simpl in Hd.
  apply elem_of_cons in Hd as [-> | Hd]; [by apply lookup_singleton_ne|].
  apply elem_of_cons in Hd as [-> | Hd]; [by apply lookup_singleton_ne|].
  by apply elem_of_nil in Hd.
Qed.


(** X5.  The image inherits from the base image every label other than
    maintainer and the two capability labels and every variable other than
    PATH and the five of [python_environment]; the working directory and
    the command of the base image are not inherited: the working directory
    is / and the command is empty. *)
Theorem image_inherits_the_rest
        (pull : string -> option Image)
        (sh : string -> Image -> option (gset string))
        (context : gset string) (img : Image) :
  build pull sh context Dockerfile = Some img ->
  exists b, pull "ubuntu:16.04" = Some b /\
    (forall k, k ∉ label_keys Dockerfile ->
               Labels (config img) !! k = Labels (config b) !! k) /\
    (forall k, k ∉ env_keys Dockerfile ->
               Env (config img) !! k = Env (config b) !! k) /\
    WorkingDir (config img) = "/" /\
    Cmd (config img) = [].
Proof.
  intros Hbuild.
  pose proof (image_workdir pull sh context img Hbuild) as Hwd.
  pose proof (image_cmd pull sh context img Hbuild) as Hcmd.
  destruct (image_config pull sh context img Hbuild) as (b & Hb & Hcfg).
  exists b. split; [done|]. rewrite Hcfg in *.
  split; [|split; [|done]].
  - intros k Hk. by apply configure_labels_other.
  - intros k Hk. by apply configure_env_other.
Qed.


(** X7.  The handler package is installed from the copy made just before:
    the last RUN command runs in an image that holds
    /multi_model_serving-1.0.0.tar.gz, whose working directory is / and
    whose PATH starts with /miniconda3/bin:, and the files of the built
    image are the files that command leaves plus /serve.py. *)
Theorem package_installed_from_copied_tarball
        (pull : string -> option Image)
        (sh : string -> Image -> option (gset string))
        (context : gset string) (img : Image) :
  build pull sh context Dockerfile = Some img ->
  exists prev fs,
    "/multi_model_serving-1.0.0.tar.gz" ∈ files prev /\
    WorkingDir (config prev) = "/" /\
    (exists rest, Env (config prev) !! "PATH" = Some ("/miniconda3/bin:" ++ rest)) /\
    sh "pip install /multi_model_serving-1.0.0.tar.gz && rm /multi_model_serving-1.0.0.tar.gz"
       prev = Some fs /\
    files img = {[ "/serve.py" ]} ∪ fs.
Proof.
  intros Hbuild. unfold build, Dockerfile in Hbuild.
  destruct (pull "ubuntu:16.04") as [b|] eqn:Hb; [|done].
  cbn [foldM exec] in Hbuild.
  repeat match type of Hbuild with
         | context [sh ?c ?i] =>
             destruct (sh c i) as [?fs|] eqn:?Hsh; [|done];
             cbn [foldM exec] in Hbuild
         | context [bool_decide ?P] =>
             destruct (bool_decide P) eqn:?Hin; [|done];
             cbn [foldM exec] in Hbuild
         end.
  injection Hbuild as <-.
  match goal with
  | H : sh "pip install /multi_model_serving-1.0.0.tar.gz && rm /multi_model_serving-1.0.0.tar.gz"
           ?i = Some ?f |- _ => exists i, f
  end.
  split; [apply elem_of_union_l, elem_of_singleton; reflexivity|].
  split; [reflexivity|].
  split.
  - exists (default "" (Env (config b) !! "PATH")).
    cbn [config configure Env set_all fold_left map fst snd expand expand_word
         String.concat].
    repeat (rewrite lookup_insert_ne; [|done]).
    rewrite lookup_insert_eq. reflexivity.
  - split; [done|]. reflexivity.
Qed.

(** * Further properties of the notebook *)

Lemma split_length (sep : ascii) (s : string) :
  length (Notebook.split sep s) = S (Notebook.count_char sep s).
Proof.
  induction s as [|a r IH]; simpl; [done|].
  case_bool_decide; simpl; [by rewrite IH|].
  destruct (Notebook.split sep r); simpl in *; [done | exact IH].
Qed.

Lemma split_no_separator (sep : ascii) (s : string) :
  Notebook.count_char sep s = 0%nat -> Notebook.split sep s = [s].
Proof.
  induction s as [|a r IH]; simpl; [done|].
  case_bool_decide; simpl; [done|]. intros Hr. by rewrite (IH Hr).
Qed.

Lemma split_field (sep : ascii) (f r : string) :
  Notebook.count_char sep f = 0%nat ->
  Notebook.split sep (f ++ String sep EmptyString ++ r) = f :: Notebook.split sep r.
Proof.
  change (String sep EmptyString ++ r) with (String sep r).
  induction f as [|a f IH]; simpl.
  - intros _. by rewrite bool_decide_eq_true_2.
  - case_bool_decide; simpl; [done|]. intros Hf. by rewrite (IH Hf).
Qed.

(** X8.  [role.split(':')[4]] is the fifth field of the role: for a role
    made of five fields without a colon, followed by a colon and anything
    (as in arn:aws:iam::ACCOUNT:role/NAME), the account id is the fifth
    field. *)
Theorem account_id_is_fifth_field (f0 f1 f2 f3 acct resource : string) :
  Notebook.count_char ":" f0 = 0%nat ->
  Notebook.count_char ":" f1 = 0%nat ->
  Notebook.count_char ":" f2 = 0%nat ->
  Notebook.count_char ":" f3 = 0%nat ->
  Notebook.count_char ":" acct = 0%nat ->
  Notebook.account_id
    (f0 ++ ":" ++ f1 ++ ":" ++ f2 ++ ":" ++ f3 ++ ":" ++ acct ++ ":" ++ resource)
  = Some acct.
Proof.
  intros H0 H1 H2 H3 H4. unfold Notebook.account_id.
  rewrite (split_field _ f0), (split_field _ f1), (split_field _ f2),
          (split_field _ f3), (split_field _ acct) by done.
  reflexivity.
Qed.

(** X9.  [role.split(':')[4]] is out of range exactly when the role has
    fewer than four colons; with four or more the notebook gets an account
    id. *)
Theorem account_id_out_of_range (execution_role : string) :
  Notebook.account_id execution_role = None <->
  (Notebook.count_char ":" execution_role < 4)%nat.
Proof.
  unfold Notebook.account_id. rewrite lookup_ge_None, split_length. lia.
Qed.

(** X10.  The two models and the two endpoints the notebook creates never
    share a name, whatever the time stamps are (also for equal stamps). *)
Theorem deployment_names_distinct
        (execution_role account region bucket s1 s2 : string) :
  Notebook.name (Notebook.single_model execution_role account region bucket s1) <>
  Notebook.mdm_name (Notebook.multi_model execution_role account region bucket s2) /\
  Notebook.endpoint_name s1 <> Notebook.multi_endpoint_name s2.
Proof.
  split; simpl; unfold Notebook.endpoint_name, Notebook.multi_endpoint_name;
    simpl; discriminate.
Qed.

Lemma prefix_app (a x y : string) :
  String.prefix (a ++ x) (a ++ y) = String.prefix x y.
Proof.
  induction a as [|c a IH]; simpl; [done|].
  destruct (Ascii.ascii_dec c c); [exact IH | done].
Qed.

Lemma prefix_append (a t : string) : String.prefix a (a ++ t) = true.
Proof.
  induction a as [|c a IH]; simpl; [by destruct t|].
  destruct (Ascii.ascii_dec c c); [exact IH | done].
Qed.

(** X11.  For every bucket, each [target_model] the notebook invokes names,
    under the model data prefix, an archive the notebook uploaded there;
    both uploaded archives lie under the prefix, and the archive of the
    single-model deployment does not. *)
Theorem invoked_targets_are_uploaded (bucket : string) :
  (forall t, t ∈ Notebook.invoked_targets ->
             Notebook.s3_model_data_prefix bucket ++ t ∈ Notebook.uploaded_archives bucket) /\
  (forall p, p ∈ Notebook.uploaded_archives bucket ->
             String.prefix (Notebook.s3_model_data_prefix bucket) p = true) /\
  String.prefix (Notebook.s3_model_data_prefix bucket) (Notebook.s3_model_path bucket)
  = false.
Proof.
  split; [|split].
  - intros t Ht. unfold Notebook.invoked_targets in Ht.
    unfold Notebook.uploaded_archives, Notebook.s3_model_1_path, Notebook.s3_model_2_path.
    apply elem_of_cons in Ht as [-> | Ht]; [set_solver|].
    apply elem_of_cons in Ht as [-> | Ht]; [set_solver|].
    by apply elem_of_nil in Ht.
  - intros p Hp.
    unfold Notebook.uploaded_archives, Notebook.s3_model_1_path, Notebook.s3_model_2_path in Hp.
    apply elem_of_cons in Hp as [-> | Hp]; [apply prefix_append|].
    apply elem_of_cons in Hp as [-> | Hp]; [apply prefix_append|].
    by apply elem_of_nil in Hp.
  - unfold Notebook.s3_model_data_prefix, Notebook.s3_model_path.
    change ("s3://" ++ ?x) with (String "s" (String "3" (String ":" (String "/" (String "/" x))))).
    cbn [String.prefix]. repeat (destruct (Ascii.ascii_dec _ _); [|done]).
    rewrite prefix_app. reflexivity.
Qed.

(** * The further properties at concrete inputs *)

Lemma build_fails_without_its_inputs_witness :
  ("code/serve.py" ∉ (∅ : gset string)) /\
  build registry quiet_shell ∅ Dockerfile = None.
Proof.
  assert ("code/serve.py" ∉ (∅ : gset string)) as Hmissing
    by (apply (bool_decide_unpack _); vm_compute; exact I).
  split; [exact Hmissing|].
  apply (build_fails_without_its_inputs registry quiet_shell ∅).
  right. right. exact Hmissing.
Defined.


Lemma python_environment_reaches_containers_witness :
  build registry quiet_shell docker_context Dockerfile = Some built_image /\
  Env (config built_image) !! "PYTHONUNBUFFERED" = Some "1" /\
  c_env (run built_image ["serve"] hosted_environment) !! "PYTHONUNBUFFERED" = Some "1".
Proof.
  split; [vm_compute; reflexivity|].
  destruct (python_environment_reaches_containers
              registry quiet_shell docker_context built_image
              "arn:aws:iam::123456789012:role/service-role/notebook"
              "123456789012" "eu-west-1" "sagemaker-eu-west-1-123456789012"
              "2020-01-01-00-00-00"
              ltac:(vm_compute; reflexivity)
              "PYTHONUNBUFFERED" "1"
              ltac:(apply (bool_decide_unpack _); vm_compute; exact I))
    as (Himg & Hrun & _).
  split; [exact Himg|].
  apply Hrun. vm_compute. reflexivity.
Defined.


Lemma image_inherits_the_rest_witness :
  build registry quiet_shell docker_context Dockerfile = Some built_image /\
  exists b, registry "ubuntu:16.04" = Some b /\
    Env (config built_image) !! "HOME" = Env (config b) !! "HOME" /\
    WorkingDir (config built_image) = "/" /\
    Cmd (config built_image) = [].
Proof.
  split; [vm_compute; reflexivity|].
  destruct (image_inherits_the_rest
              registry quiet_shell docker_context built_image
              ltac:(vm_compute; reflexivity)) as (b & Hb & _ & Henv & Hwd & Hcmd).
  exists b. split; [exact Hb|]. split; [|split; [exact Hwd | exact Hcmd]].
  apply Henv. apply (bool_decide_unpack _). vm_compute. exact I.
Defined.


Lemma package_installed_from_copied_tarball_witness :
  build registry quiet_shell docker_context Dockerfile = Some built_image /\
  exists prev fs,
    "/multi_model_serving-1.0.0.tar.gz" ∈ files prev /\
    quiet_shell "pip install /multi_model_serving-1.0.0.tar.gz && rm /multi_model_serving-1.0.0.tar.gz"
                prev = Some fs /\
    files built_image = {[ "/serve.py" ]} ∪ fs.
Proof.
  split; [vm_compute; reflexivity|].
  destruct (package_installed_from_copied_tarball
              registry quiet_shell docker_context built_image
              ltac:(vm_compute; reflexivity)) as (prev & fs & Hin & _ & _ & Hsh & Hfiles).
  exists prev, fs. split; [exact Hin|]. split; [exact Hsh | exact Hfiles].
Defined.

Lemma account_id_is_fifth_field_witness :
  Notebook.account_id "arn:aws:iam::123456789012:role/service-role/notebook"
  = Some "123456789012".
Proof.
  exact (account_id_is_fifth_field "arn" "aws" "iam" "" "123456789012"
           "role/service-role/notebook"
           eq_refl eq_refl eq_refl eq_refl eq_refl).
Defined.
